(** * deepagents_ollama: the adapter's config sanitisation, the search tool's
    formatting and the memory-statistics query

    A shallow embedding of
      - [showroom/ollama_adapter.py]   ([DeepAgentsOllamaAdapter]),
      - [showroom/agent_deepagents.py] ([internet_search]),
      - [showroom/memory_utils.py]     ([clear_cuda_memory],
                                        [get_memory_stats]).

    Python dictionaries are finite maps ([gmap string _]); the dictionaries a
    caller can alias (the invocation configuration) live in an object store
    and are passed by reference, so that "copy" and "mutate" are different
    things in the model as they are in Python.  Code that can raise runs in a
    state-and-exception monad. *)

From Stdlib Require Import ZArith QArith Ascii String.
From stdpp Require Import gmap strings list fin_maps pretty.

Local Open Scope string_scope.
Local Open Scope list_scope.

(** ** Python values *)

(** The values that can sit in a configuration, a keyword argument, a request
    or a response.  [PList], [PTuple] and [PDict] are the instances of
    [list], [tuple] and [dict] (and of their subclasses); [PObj cls id] is an
    instance of any other class (a message, a patch object, ...). *)
#[warnings="-register-all"]
Inductive pyval : Type :=
  | PNone
  | PBool (b : bool)
  | PInt (z : Z)
  | PFloat (q : Q)
  | PStr (s : string)
  | PList (l : list pyval)
  | PTuple (l : list pyval)
  | PDict (d : gmap string pyval)
  | PObj (cls : string) (id : nat).

(** [v is None] *)
Definition is_None (v : pyval) : bool :=
  match v with PNone => true | _ => false end.

(** [isinstance(v, (list, tuple))] *)
Definition isinstance_list_tuple (v : pyval) : bool :=
  match v with PList _ | PTuple _ => true | _ => false end.

(** [isinstance(v, dict)] *)
Definition isinstance_dict (v : pyval) : bool :=
  match v with PDict _ => true | _ => false end.

(** The name [type(v)] prints with. *)
Definition class_name (v : pyval) : string :=
  match v with
  | PNone => "NoneType"
  | PBool _ => "bool"
  | PInt _ => "int"
  | PFloat _ => "float"
  | PStr _ => "str"
  | PList _ => "list"
  | PTuple _ => "tuple"
  | PDict _ => "dict"
  | PObj cls _ => cls
  end.

(** [f"{type(v)}"] *)
Definition type_repr (v : pyval) : string :=
  "<class '" ++ class_name v ++ "'>".

(** ** Exceptions *)

(** The classes of exception a call into a library can fail with.  All of
    them derive from [Exception]; [ModuleNotFoundError] derives from
    [ImportError].  The interpreter's own signals ([KeyboardInterrupt],
    [SystemExit]), which are no failure of the called code, are not
    modelled. *)
Inductive exn_class : Type :=
  | ImportError
  | ModuleNotFoundError
  | KeyError
  | TypeError
  | AssertionError
  | AttributeError
  | RuntimeError
  | ConnectionError.

Record exn : Type := mk_exn { exn_cls : exn_class; exn_msg : string }.

(** [isinstance(e, ImportError)], what [except ImportError] tests. *)
Definition is_ImportError (e : exn) : bool :=
  match exn_cls e with
  | ImportError | ModuleNotFoundError => true
  | _ => false
  end.

(** [str(e)] *)
Definition exn_str (e : exn) : string := exn_msg e.

Inductive outcome (A : Type) : Type :=
  | Ok (a : A)
  | Raise (e : exn).
Arguments Ok {A} a.
Arguments Raise {A} e.

(** ** The object store *)

(** A reference to a dictionary object is its index in the store. *)
Abbreviation ref := nat (only parsing).

Record world : Type := mk_world {
  heap : list (gmap string pyval);   (* the dictionary objects *)
  stdout : list string               (* the lines printed so far *)
}.

Definition set_heap (h : list (gmap string pyval)) (w : world) : world :=
  {| heap := h; stdout := stdout w |}.

(** The contents of the dictionary [r] refers to.  Every reference a Python
    program holds is live; the lemmas state that as [heap w !! r = Some d]. *)
Definition deref (w : world) (r : ref) : gmap string pyval :=
  default ∅ (heap w !! r).

(** The value a configuration argument stands for: [None], or the
    dictionary as it is now. *)
Definition config_value (config : option ref) (w : world) : pyval :=
  match config with
  | None => PNone
  | Some r => PDict (deref w r)
  end.

(** ** The monad: state and exceptions *)

Definition M (A : Type) : Type := world → outcome A * world.

Definition ret {A} (a : A) : M A := fun w => (Ok a, w).

Definition bind {A B} (m : M A) (f : A → M B) : M B :=
  fun w =>
    match m w with
    | (Ok a, w') => f a w'
    | (Raise e, w') => (Raise e, w')
    end.

Definition raise {A} (e : exn) : M A := fun w => (Raise e, w).

#[global] Instance M_ret : MRet M := @ret.
#[global] Instance M_bind : MBind M := λ A B f m, bind m f.

(** [print(line)] *)
Definition print (line : string) : M unit :=
  fun w => (Ok tt, {| heap := heap w; stdout := stdout w ++ [line] |}).

(** [dict(d)]: a new dictionary object with the same keys and the same
    values (a shallow copy). *)
Definition dict_copy (r : ref) : M ref :=
  fun w => (Ok (length (heap w)), set_heap (heap w ++ [deref w r]) w).

(** [k in d] *)
Definition dict_contains (r : ref) (k : string) : M bool :=
  fun w => (Ok (bool_decide (is_Some (deref w r !! k))), w).

(** [d[k]] *)
Definition dict_getitem (r : ref) (k : string) : M pyval :=
  fun w =>
    match deref w r !! k with
    | Some v => (Ok v, w)
    | None => (Raise (mk_exn KeyError k), w)
    end.

(** [d[k] = v] *)
Definition dict_setitem (r : ref) (k : string) (v : pyval) : M unit :=
  fun w => (Ok tt, set_heap (<[r := <[k := v]> (deref w r)]> (heap w)) w).

(** ** The adapter: [_sanitize_config] *)

(** The body of [if "overwrite" in sanitized: ...]. *)
Definition sanitize_overwrite (sanitized : ref) : M unit :=
  has ← dict_contains sanitized "overwrite";
  if has : bool then
    overwrite ← dict_getitem sanitized "overwrite";
    if negb (is_None overwrite) && negb (isinstance_list_tuple overwrite)
    then dict_setitem sanitized "overwrite" PNone
    else ret tt
  else ret tt.

(** The body of [if "configurable" in sanitized: ...]. *)
Definition sanitize_configurable (sanitized : ref) : M unit :=
  has ← dict_contains sanitized "configurable";
  if has : bool then
    configurable ← dict_getitem sanitized "configurable";
    if negb (is_None configurable) && negb (isinstance_dict configurable)
    then dict_setitem sanitized "configurable" (PDict ∅)
    else ret tt
  else ret tt.

(** [DeepAgentsOllamaAdapter._sanitize_config].  [config] is [None] or a
    reference to the caller's dictionary. *)
Definition _sanitize_config (config : option ref) : M (option ref) :=
  match config with
  | None => ret None
  | Some config =>
      sanitized ← dict_copy config;
      sanitize_overwrite sanitized;;
      sanitize_configurable sanitized;;
      ret (Some sanitized)
  end.

(** What [_sanitize_config] does to the contents of the dictionary, as a
    function on maps: the two conditional assignments. *)
Definition fix_overwrite (d : gmap string pyval) : gmap string pyval :=
  match d !! "overwrite" with
  | Some v =>
      if negb (is_None v) && negb (isinstance_list_tuple v)
      then <["overwrite" := PNone]> d else d
  | None => d
  end.

Definition fix_configurable (d : gmap string pyval) : gmap string pyval :=
  match d !! "configurable" with
  | Some v =>
      if negb (is_None v) && negb (isinstance_dict v)
      then <["configurable" := PDict ∅]> d else d
  | None => d
  end.

Definition sanitized_dict (d : gmap string pyval) : gmap string pyval :=
  fix_configurable (fix_overwrite d).

(** ** The adapter: the entry points that take a configuration *)

(** Iterating a generator to its end: the items it yields, how it ends
    (exhausted, or by an exception) and the state it leaves. *)
Definition Gen : Type := world → list pyval * outcome unit * world.

(** The interface of the wrapped model client ([ChatOllama]): the entry
    points the adapter delegates to.  [C] is the type of client objects.
    A coroutine ([ainvoke]) is modelled by the computation it runs when it is
    awaited. *)
Class Runnable (C : Type) : Type := {
  r_invoke : C → pyval → option ref → gmap string pyval → M pyval;
  r_stream : C → pyval → option ref → gmap string pyval → Gen;
  r_ainvoke : C → pyval → option ref → gmap string pyval → M pyval;
  r_with_config : C → option ref → gmap string pyval → M C
}.

(** The two fields of a [DeepAgentsOllamaAdapter]. *)
Record Adapter (C : Type) : Type := mk_adapter {
  ollama_model : C;
  model_name : string
}.
Arguments mk_adapter {C} _ _.
Arguments ollama_model {C} _.
Arguments model_name {C} _.

Section adapter.
Context {C : Type} `{!Runnable C}.

(** [DeepAgentsOllamaAdapter.invoke] *)
Definition invoke (self : Adapter C) (input : pyval) (config : option ref)
    (kwargs : gmap string pyval) : M pyval :=
  print ("[ADAPTER] invoke called with input type: " ++ type_repr input);;
  sanitized_config ← _sanitize_config config;
  result ← r_invoke (ollama_model self) input sanitized_config kwargs;
  print ("[ADAPTER] invoke returned: " ++ type_repr result);;
  ret result.

(** [DeepAgentsOllamaAdapter.stream]: a generator; its body runs when the
    caller iterates, and [yield from] hands over every item and the way
    the inner iteration ends. *)
Definition stream (self : Adapter C) (input : pyval) (config : option ref)
    (kwargs : gmap string pyval) : Gen :=
  fun w =>
    match (print ("[ADAPTER] stream called with input type: "
                  ++ type_repr input);;
           _sanitize_config config) w with
    | (Ok sanitized_config, w') =>
        r_stream (ollama_model self) input sanitized_config kwargs w'
    | (Raise e, w') => ([], Raise e, w')
    end.

(** [DeepAgentsOllamaAdapter.ainvoke] *)
Definition ainvoke (self : Adapter C) (input : pyval) (config : option ref)
    (kwargs : gmap string pyval) : M pyval :=
  sanitized_config ← _sanitize_config config;
  r_ainvoke (ollama_model self) input sanitized_config kwargs.

(** [new_adapter.<field> = value], where [new_adapter] comes from
    [DeepAgentsOllamaAdapter.__new__] and no [__init__] has run.  The class
    is a pydantic model ([BaseChatModel]): its [__setattr__] reads the
    bookkeeping that [__init__] sets up, which is not there, and raises. *)
Definition no_fields_set : exn :=
  mk_exn AttributeError
    "'DeepAgentsOllamaAdapter' object has no attribute '__pydantic_fields_set__'".

Definition setattr_uninitialised (field : string) : M unit :=
  raise no_fields_set.

(** [DeepAgentsOllamaAdapter.with_config].  The right-hand side of the first
    assignment, the wrapped client's [with_config], is evaluated before the
    assignment is tried. *)
Definition with_config (self : Adapter C) (config : option ref)
    (kwargs : gmap string pyval) : M (Adapter C) :=
  sanitized_config ← _sanitize_config config;
  new_model ← r_with_config (ollama_model self) sanitized_config kwargs;
  setattr_uninitialised "ollama_model";;
  setattr_uninitialised "model_name";;
  ret {| ollama_model := new_model; model_name := model_name self |}.

End adapter.

Definition outcome_map {A B} (f : A → B) (o : outcome A) : outcome B :=
  match o with Ok a => Ok (f a) | Raise e => Raise e end.

#[global] Instance outcome_ret : MRet outcome := @Ok.
#[global] Instance outcome_bind : MBind outcome := λ A B f o,
  match o with Ok a => f a | Raise e => Raise e end.

(** ** The search tool *)

(** [Literal["general", "news", "finance"]] *)
Inductive topic : Type := general | news | finance.

(** What the search provider answers: a dictionary of which the tool reads
    the key ["results"], a list of items; an item is a dictionary whose
    values are strings.  A string is a [string] and its length the number of
    its characters. *)
Record response : Type := mk_response {
  results : option (list (gmap string string))
}.

Definition nl : string := String "010"%char EmptyString.

Definition truncation_marker : string := "... (truncated)".
Definition separator : string := nl +:+ nl +:+ "---" +:+ nl +:+ nl.
Definition no_results : string := "No results found.".

(** The body of the [for item in ...] loop: the block appended for one
    item. *)
Definition format_item (item : gmap string string) : string :=
  let title := default "No Title" (item !! "title") in
  let url := default "" (item !! "url") in
  let content := default "" (item !! "content") in
  let content :=
    if Nat.ltb 2000 (String.length content)
    then substring 0 2000 content +:+ truncation_marker
    else content in
  "**" +:+ title +:+ "**" +:+ nl +:+ "URL: " +:+ url +:+ nl +:+ content.

(** The list [results] when the loop is over. *)
Definition format_results (r : response) : list string :=
  format_item <$> default [] (results r).

(** ["\n\n---\n\n".join(results) if results else "No results found."] *)
Definition render (blocks : list string) : string :=
  match blocks with
  | [] => no_results
  | _ => String.concat separator blocks
  end.

Section search.
(** [tavily_client.search], the external provider. *)
Variable tavily_search : string → Z → bool → topic → outcome response.

(** [internet_search] *)
Definition internet_search (query : string) (max_results : Z) (tp : topic)
    (include_raw_content : bool) : outcome string :=
  r ← tavily_search query max_results include_raw_content tp;
  mret (render (format_results r)).
End search.

(** ** The memory statistics *)

(** What [get_memory_stats] uses of the [torch] module.  A call either
    returns or raises. *)
Record Torch : Type := mk_torch {
  cuda_is_available : outcome bool;
  cuda_memory_allocated : outcome Z;
  cuda_memory_reserved : outcome Z;
  cuda_max_memory_allocated : outcome Z;
  has_backends_mps : bool;          (* hasattr(torch.backends, 'mps') *)
  mps_is_available : outcome bool
}.

(** [n / 1024 / 1024], the quotient as a rational number: the float Python
    computes as long as the counter is below 2^53, where the conversion and
    the two divisions by a power of two are exact. *)
Definition to_mb (n : Z) : pyval := PFloat (inject_Z n / 1024 / 1024)%Q.

Definition cpu_stats : gmap string pyval :=
  {[ "backend" := PStr "cpu"; "note" := PStr "No GPU backend available" ]}.

Definition mps_stats : gmap string pyval :=
  {[ "backend" := PStr "mps";
     "note" := PStr "MPS memory stats limited - Apple Silicon detected" ]}.

(** The [try:] block of [get_memory_stats]; [import_torch] is what
    [import torch] does. *)
Definition memory_stats_body (import_torch : outcome Torch)
    : outcome (option (gmap string pyval)) :=
  torch ← import_torch;
  cuda ← cuda_is_available torch;
  if cuda : bool then
    allocated ← cuda_memory_allocated torch;
    reserved ← cuda_memory_reserved torch;
    max_allocated ← cuda_max_memory_allocated torch;
    mret (Some ({[ "backend" := PStr "cuda";
                   "allocated_mb" := to_mb allocated;
                   "reserved_mb" := to_mb reserved;
                   "max_allocated_mb" := to_mb max_allocated ]}
                 : gmap string pyval))
  else if has_backends_mps torch then
    mps ← mps_is_available torch;
    if mps : bool then mret (Some mps_stats) else mret (Some cpu_stats)
  else mret (Some cpu_stats).

(** [get_memory_stats]: the [try:] block and its two handlers, in their
    order. *)
Definition get_memory_stats (import_torch : outcome Torch)
    : outcome (option (gmap string pyval)) :=
  match memory_stats_body import_torch with
  | Ok stats => Ok stats
  | Raise e =>
      if is_ImportError e then Ok None
      else Ok (Some {[ "error" := PStr (exn_str e) ]})
  end.

(** ** Test doubles *)

(** A wrapped client that answers with what it was called with: the input,
    the contents of the configuration it was handed and the keyword
    arguments.  [Echo n] has been re-configured [n] times. *)
Inductive EchoModel : Type := Echo (n : nat).

Definition echo_call (input : pyval) (config : option ref)
    (kwargs : gmap string pyval) : M pyval :=
  λ w, (Ok (PTuple [input; config_value config w; PDict kwargs]), w).

#[global] Instance EchoModel_runnable : Runnable EchoModel := {
  r_invoke _ := echo_call;
  r_stream _ input config kwargs :=
    λ w, ([input; config_value config w; PDict kwargs], Ok tt, w);
  r_ainvoke _ := echo_call;
  r_with_config '(Echo n) _ _ := mret (Echo (S n))
}.

(** A wrapped client that is down: every call raises. *)
Inductive DownModel : Type := Down.

Definition connection_refused : exn := mk_exn ConnectionError "connection refused".

#[global] Instance DownModel_runnable : Runnable DownModel := {
  r_invoke _ _ _ _ := raise connection_refused;
  r_stream _ _ _ _ := λ w, ([], Raise connection_refused, w);
  r_ainvoke _ _ _ _ := raise connection_refused;
  r_with_config _ _ _ := raise connection_refused
}.

(** A world with one configuration object in it. *)
Definition world_with (d : gmap string pyval) : world :=
  {| heap := [d]; stdout := [] |}.

(** The configuration of the end-to-end scenario: a patch object under
    ["overwrite"], a string under ["configurable"]. *)
Definition bad_config : gmap string pyval :=
  {[ "overwrite" := PObj "Overwrite" 0;
     "configurable" := PStr "not-a-dict";
     "tags" := PList [PStr "a"] ]}.

(** A search provider that answers every query with the same items. *)
Definition stub_search (items : option (list (gmap string string)))
    : string → Z → bool → topic → outcome response :=
  λ _ _ _ _, Ok (mk_response items).

Definition mk_item (t u c : string) : gmap string string :=
  {[ "title" := t; "url" := u; "content" := c ]}.

(** A string of [n] letters. *)
Fixpoint letters (n : nat) : string :=
  match n with
  | O => EmptyString
  | S n => String "x"%char (letters n)
  end.

(** ** What sanitisation is for *)

(** The docstrings of the adapter say what the middleware can take:
    ["overwrite"] is [None] or a list or tuple, ["configurable"] is [None] or
    a dictionary; a key that is not there is no trouble. *)
Definition overwrite_ok (v : pyval) : bool :=
  is_None v || isinstance_list_tuple v.

Definition configurable_ok (v : pyval) : bool :=
  is_None v || isinstance_dict v.

Definition config_safe (d : gmap string pyval) : bool :=
  from_option overwrite_ok true (d !! "overwrite")
  && from_option configurable_ok true (d !! "configurable").

(** The same of a configuration argument: [None] is safe. *)
Definition config_arg_safe (config : option ref) (w : world) : bool :=
  match config with
  | None => true
  | Some r => config_safe (deref w r)
  end.

(** A wrapped client that checks the configuration it is handed before it
    does anything, and fails the call when the configuration is not safe. *)
Inductive Guarded (C : Type) : Type := Guard (c : C).
Arguments Guard {C} c.

Definition unguard {C : Type} (g : Guarded C) : C :=
  match g with Guard c => c end.

Definition unsafe_config : exn := mk_exn AssertionError "unsafe config".

#[global] Instance Guarded_runnable {C : Type} `{!Runnable C}
    : Runnable (Guarded C) := {
  r_invoke g input config kwargs := λ w,
    if config_arg_safe config w
    then r_invoke (unguard g) input config kwargs w
    else (Raise unsafe_config, w);
  r_stream g input config kwargs := λ w,
    if config_arg_safe config w
    then r_stream (unguard g) input config kwargs w
    else ([], Raise unsafe_config, w);
  r_ainvoke g input config kwargs := λ w,
    if config_arg_safe config w
    then r_ainvoke (unguard g) input config kwargs w
    else (Raise unsafe_config, w);
  r_with_config g config kwargs := λ w,
    if config_arg_safe config w
    then (outcome_map Guard (fst (r_with_config (unguard g) config kwargs w)),
          snd (r_with_config (unguard g) config kwargs w))
    else (Raise unsafe_config, w)
}.

(** ** The adapter: the entry points without a configuration *)

(** The hooks of the wrapped client the adapter passes through to.
    [stop] and [run_manager] are [None] or an object. *)
Class ChatModel (C : Type) : Type := {
  r_generate :
    C → list pyval → pyval → pyval → gmap string pyval → M pyval;
  r_agenerate :
    C → list pyval → pyval → pyval → gmap string pyval → M pyval;
  r_bind_tools : C → list pyval → gmap string pyval → M pyval
}.

Section passthrough.
Context {C : Type} `{!ChatModel C}.

(** [DeepAgentsOllamaAdapter._generate] *)
Definition _generate (self : Adapter C) (messages : list pyval)
    (stop run_manager : pyval) (kwargs : gmap string pyval) : M pyval :=
  print ("[ADAPTER] _generate called with "
         +:+ pretty (length messages) +:+ " messages");;
  result ← r_generate (ollama_model self) messages stop run_manager kwargs;
  print ("[ADAPTER] _generate returned: " +:+ type_repr result);;
  ret result.

(** [DeepAgentsOllamaAdapter._agenerate] *)
Definition _agenerate (self : Adapter C) (messages : list pyval)
    (stop run_manager : pyval) (kwargs : gmap string pyval) : M pyval :=
  r_agenerate (ollama_model self) messages stop run_manager kwargs.

(** [DeepAgentsOllamaAdapter.bind_tools] *)
Definition bind_tools (self : Adapter C) (tools : list pyval)
    (kwargs : gmap string pyval) : M pyval :=
  print ("[ADAPTER] bind_tools called with "
         +:+ pretty (length tools) +:+ " tools");;
  bound_model ← r_bind_tools (ollama_model self) tools kwargs;
  print ("[ADAPTER] bind_tools returning: " +:+ type_repr bound_model);;
  ret bound_model.

End passthrough.

(** ** Clearing the accelerator memory *)

(** What [clear_cuda_memory] calls, outside [print]. *)
Inductive mem_call : Type :=
  | GcCollect            (* gc.collect() *)
  | ImportTorch          (* import torch *)
  | CudaIsAvailable      (* torch.cuda.is_available() *)
  | CudaEmptyCache       (* torch.cuda.empty_cache() *)
  | CudaSynchronize      (* torch.cuda.synchronize() *)
  | MpsIsAvailable       (* torch.backends.mps.is_available() *)
  | MpsHasEmptyCache     (* hasattr(torch.mps, 'empty_cache') *)
  | MpsEmptyCache.       (* torch.mps.empty_cache() *)

Inductive mem_event : Type :=
  | Called (c : mem_call)
  | Printed (line : string).

(** The [torch] module as [clear_cuda_memory] uses it: what
    [get_memory_stats] reads, and the calls that release memory. *)
Record TorchCache : Type := mk_torch_cache {
  torch_stats : Torch;
  cuda_empty_cache : outcome unit;
  cuda_synchronize : outcome unit;
  mps_has_empty_cache : outcome bool;
  mps_empty_cache : outcome unit
}.

(** Computations that leave a trace of calls and printed lines, and can
    raise. *)
Definition T (A : Type) : Type := list mem_event → outcome A * list mem_event.

#[global] Instance T_ret : MRet T := λ A a t, (Ok a, t).
#[global] Instance T_bind : MBind T := λ A B f m t,
  match m t with
  | (Ok a, t') => f a t'
  | (Raise e, t') => (Raise e, t')
  end.

(** A call: it is made, and it returns or raises. *)
Definition call {A} (c : mem_call) (result : outcome A) : T A :=
  λ t, (result, t ++ [Called c]).

(** [if verbose: print(line)] *)
Definition print_if (verbose : bool) (line : string) : T unit :=
  λ t, (Ok tt, if verbose then t ++ [Printed line] else t).

(** [try: body except ...: handler] *)
Definition try_except {A} (body : T A) (handler : exn → T A) : T A :=
  λ t,
    match body t with
    | (Ok a, t') => (Ok a, t')
    | (Raise e, t') => handler e t'
    end.

(** The [try:] block of [clear_cuda_memory]. *)
Definition clear_cuda_body (import_torch : outcome TorchCache)
    (verbose : bool) : T unit :=
  torch ← call ImportTorch import_torch;
  cuda ← call CudaIsAvailable (cuda_is_available (torch_stats torch));
  if cuda : bool then
    call CudaEmptyCache (cuda_empty_cache torch);;
    call CudaSynchronize (cuda_synchronize torch);;
    print_if verbose "[MEMORY] CUDA memory cache cleared"
  else
    mps ← (if has_backends_mps (torch_stats torch)
           then call MpsIsAvailable (mps_is_available (torch_stats torch))
           else mret false);
    if mps : bool then
      has ← call MpsHasEmptyCache (mps_has_empty_cache torch);
      (if has : bool
       then call MpsEmptyCache (mps_empty_cache torch)
       else mret tt);;
      print_if verbose "[MEMORY] MPS memory cache cleared"
    else
      print_if verbose
        "[MEMORY] No GPU backend detected, ran garbage collection only".

(** [clear_cuda_memory] *)
Definition clear_cuda_memory (import_torch : outcome TorchCache)
    (verbose : bool) : T unit :=
  call GcCollect (Ok tt);;
  try_except (clear_cuda_body import_torch verbose)
    (λ e,
       if is_ImportError e
       then print_if verbose
              "[MEMORY] PyTorch not available, ran garbage collection only"
       else print_if verbose
              ("[MEMORY] Warning during memory cleanup: " +:+ exn_str e)).

(** The calls of a trace, without the printed lines. *)
Definition calls_of (t : list mem_event) : list mem_call :=
  omap (λ ev, match ev with Called c => Some c | Printed _ => None end) t.

(** The printed lines of a trace. *)
Definition lines_of (t : list mem_event) : list string :=
  omap (λ ev, match ev with Printed l => Some l | Called _ => None end) t.

(** Test doubles: a [torch] whose calls all succeed, with and without the
    backends. *)
Definition torch_with (cuda has_mps mps : bool) : TorchCache :=
  {| torch_stats :=
       {| cuda_is_available := Ok cuda;
          cuda_memory_allocated := Ok 1048576%Z;
          cuda_memory_reserved := Ok 2097152%Z;
          cuda_max_memory_allocated := Ok 3145728%Z;
          has_backends_mps := has_mps;
          mps_is_available := Ok mps |};
     cuda_empty_cache := Ok tt;
     cuda_synchronize := Ok tt;
     mps_has_empty_cache := Ok true;
     mps_empty_cache := Ok tt |}.

(** A wrapped client whose hooks answer with a fixed object, or fail when
    they are handed no message or tool. *)
Inductive FixedModel : Type := Fixed.

#[global] Instance FixedModel_chat : ChatModel FixedModel := {
  r_generate _ messages _ _ _ :=
    match messages with
    | [] => raise (mk_exn TypeError "no messages")
    | _ => mret (PObj "ChatResult" 0)
    end;
  r_agenerate _ messages _ _ _ :=
    match messages with
    | [] => raise (mk_exn TypeError "no messages")
    | _ => mret (PObj "ChatResult" 0)
    end;
  r_bind_tools _ tools _ :=
    match tools with
    | [] => raise (mk_exn TypeError "no tools")
    | _ => mret (PObj "RunnableBinding" 1)
    end
}.

(** * Proofs *)

(** ** Running [_sanitize_config] *)

Lemma deref_Some w r d : heap w !! r = Some d → deref w r = d.
Proof. intros H. unfold deref. by rewrite H. Qed.

Lemma set_heap_id w : set_heap (heap w) w = w.
Proof. by destruct w. Qed.

Lemma set_heap_insert_id w r d :
  heap w !! r = Some d → set_heap (<[r := d]> (heap w)) w = w.
Proof. intros H. rewrite list_insert_id by done. apply set_heap_id. Qed.

Lemma sanitize_overwrite_run w s d :
  heap w !! s = Some d →
  sanitize_overwrite s w
  = (Ok tt, set_heap (<[s := fix_overwrite d]> (heap w)) w).
Proof.
  intros H.
  unfold sanitize_overwrite, fix_overwrite, mbind, M_bind, bind,
    dict_contains, dict_getitem, dict_setitem, ret.
  rewrite (deref_Some _ _ _ H).
  destruct (d !! "overwrite") as [v|] eqn:Hv; cbn.
  - rewrite (deref_Some _ _ _ H), Hv.
    destruct (negb (is_None v) && negb (isinstance_list_tuple v)); cbn.
    + by rewrite (deref_Some _ _ _ H).
    + by rewrite set_heap_insert_id.
  - by rewrite set_heap_insert_id.
Qed.

Lemma sanitize_configurable_run w s d :
  heap w !! s = Some d →
  sanitize_configurable s w
  = (Ok tt, set_heap (<[s := fix_configurable d]> (heap w)) w).
Proof.
  intros H.
  unfold sanitize_configurable, fix_configurable, mbind, M_bind, bind,
    dict_contains, dict_getitem, dict_setitem, ret.
  rewrite (deref_Some _ _ _ H).
  destruct (d !! "configurable") as [v|] eqn:Hv; cbn.
  - rewrite (deref_Some _ _ _ H), Hv.
    destruct (negb (is_None v) && negb (isinstance_dict v)); cbn.
    + by rewrite (deref_Some _ _ _ H).
    + by rewrite set_heap_insert_id.
  - by rewrite set_heap_insert_id.
Qed.

(** The whole run: one new object, holding the sanitised contents, is added
    at the end of the store; nothing else happens. *)
Lemma sanitize_config_run w r :
  _sanitize_config (Some r) w
  = (Ok (Some (length (heap w))),
     set_heap (heap w ++ [sanitized_dict (deref w r)]) w).
Proof.
  unfold _sanitize_config, mbind, M_bind, bind, dict_copy. cbv beta.
  set (d := deref w r). set (s := length (heap w)).
  assert (Hi : ∀ d1 d2, (heap w ++ [d1]) !! s = Some d1
                        ∧ <[s := d2]> (heap w ++ [d1]) = heap w ++ [d2]).
  { intros d1 d2. unfold s. split.
    - by rewrite lookup_app_r, Nat.sub_diag.
    - by rewrite insert_app_r_alt, Nat.sub_diag by lia. }
  rewrite (sanitize_overwrite_run _ s d) by apply (Hi d d).
  cbn [heap set_heap stdout]. rewrite (proj2 (Hi d (fix_overwrite d))).
  rewrite (sanitize_configurable_run _ s (fix_overwrite d))
    by apply (Hi (fix_overwrite d) d).
  cbn [heap set_heap stdout].
  by rewrite (proj2 (Hi (fix_overwrite d) (fix_configurable (fix_overwrite d)))).
Qed.

Lemma sanitize_config_None w : _sanitize_config None w = (Ok None, w).
Proof. reflexivity. Qed.

(** Where the new object is, and what the old ones are, after the run. *)
Lemma lookup_sanitized (w : world) (d : gmap string pyval) :
  heap (set_heap (heap w ++ [d]) w) !! length (heap w) = Some d.
Proof. cbn. by rewrite lookup_app_r, Nat.sub_diag. Qed.

Lemma lookup_old (w : world) (d : gmap string pyval) (r : ref) :
  r < length (heap w) →
  heap (set_heap (heap w ++ [d]) w) !! r = heap w !! r.
Proof. intros H. cbn. by rewrite lookup_app_l. Qed.

(** ** The two assignments, on maps *)

Lemma fix_overwrite_lookup (d : gmap string pyval) :
  fix_overwrite d !! "overwrite"
  = (λ v, if negb (is_None v) && negb (isinstance_list_tuple v)
          then PNone else v) <$> d !! "overwrite".
Proof.
  unfold fix_overwrite. destruct (d !! "overwrite") as [v|] eqn:Hv; cbn.
  - destruct (negb (is_None v) && negb (isinstance_list_tuple v)).
    + by rewrite lookup_insert_eq.
    + done.
  - done.
Qed.

Lemma fix_overwrite_lookup_ne (d : gmap string pyval) (k : string) :
  k ≠ "overwrite" → fix_overwrite d !! k = d !! k.
Proof.
  intros Hk. unfold fix_overwrite.
  destruct (d !! "overwrite") as [v|]; [|done].
  destruct (negb (is_None v) && negb (isinstance_list_tuple v)); [|done].
  by rewrite lookup_insert_ne.
Qed.

Lemma fix_configurable_lookup (d : gmap string pyval) :
  fix_configurable d !! "configurable"
  = (λ v, if negb (is_None v) && negb (isinstance_dict v)
          then PDict ∅ else v) <$> d !! "configurable".
Proof.
  unfold fix_configurable. destruct (d !! "configurable") as [v|] eqn:Hv; cbn.
  - destruct (negb (is_None v) && negb (isinstance_dict v)).
    + by rewrite lookup_insert_eq.
    + done.
  - done.
Qed.

Lemma fix_configurable_lookup_ne (d : gmap string pyval) (k : string) :
  k ≠ "configurable" → fix_configurable d !! k = d !! k.
Proof.
  intros Hk. unfold fix_configurable.
  destruct (d !! "configurable") as [v|]; [|done].
  destruct (negb (is_None v) && negb (isinstance_dict v)); [|done].
  by rewrite lookup_insert_ne.
Qed.

Lemma sanitized_dict_overwrite (d : gmap string pyval) :
  sanitized_dict d !! "overwrite"
  = (λ v, if negb (is_None v) && negb (isinstance_list_tuple v)
          then PNone else v) <$> d !! "overwrite".
Proof.
  unfold sanitized_dict.
  by rewrite fix_configurable_lookup_ne, fix_overwrite_lookup.
Qed.

Lemma sanitized_dict_configurable (d : gmap string pyval) :
  sanitized_dict d !! "configurable"
  = (λ v, if negb (is_None v) && negb (isinstance_dict v)
          then PDict ∅ else v) <$> d !! "configurable".
Proof.
  unfold sanitized_dict.
  by rewrite fix_configurable_lookup, fix_overwrite_lookup_ne.
Qed.

Lemma sanitized_dict_other (d : gmap string pyval) (k : string) :
  k ≠ "overwrite" → k ≠ "configurable" → sanitized_dict d !! k = d !! k.
Proof.
  intros Ho Hc. unfold sanitized_dict.
  by rewrite fix_configurable_lookup_ne, fix_overwrite_lookup_ne.
Qed.

(** No key comes or goes. *)
Lemma sanitized_dict_is_Some (d : gmap string pyval) (k : string) :
  is_Some (sanitized_dict d !! k) ↔ is_Some (d !! k).
Proof.
  destruct (decide (k = "overwrite")) as [->|Ho].
  { rewrite sanitized_dict_overwrite. apply fmap_is_Some. }
  destruct (decide (k = "configurable")) as [->|Hc].
  { rewrite sanitized_dict_configurable. apply fmap_is_Some. }
  by rewrite sanitized_dict_other.
Qed.

Lemma sanitized_dict_dom (d : gmap string pyval) :
  dom (sanitized_dict d) = dom d.
Proof.
  apply set_eq. intros k. rewrite !elem_of_dom. apply sanitized_dict_is_Some.
Qed.

Lemma sanitized_dict_idem (d : gmap string pyval) :
  sanitized_dict (sanitized_dict d) = sanitized_dict d.
Proof.
  apply map_eq. intros k.
  destruct (decide (k = "overwrite")) as [->|Ho].
  { rewrite !sanitized_dict_overwrite.
    destruct (d !! "overwrite") as [v|]; [|done]. cbn. f_equal.
    by destruct v. }
  destruct (decide (k = "configurable")) as [->|Hc].
  { rewrite !sanitized_dict_configurable.
    destruct (d !! "configurable") as [v|]; [|done]. cbn. f_equal.
    by destruct v. }
  by rewrite !sanitized_dict_other.
Qed.

(** ** Sanitisation: the claims *)

(** Runs [_sanitize_config] in a goal [∃ s w', _sanitize_config _ _ = _ ∧ _]
    and reads the new object. *)
Ltac run_sanitize :=
  eexists _, _; split; [apply sanitize_config_run|];
  rewrite (deref_Some _ _ _ (lookup_sanitized _ _)).

(** C1.  When ["overwrite"] is present with a value that is neither [None]
    nor a list or tuple, the sanitised configuration holds [None] under
    ["overwrite"], and so not the original value. *)
Theorem sanitize_overwrite_scalar (w : world) (r : ref) (v : pyval) :
  deref w r !! "overwrite" = Some v →
  is_None v = false →
  isinstance_list_tuple v = false →
  ∃ s w',
    _sanitize_config (Some r) w = (Ok (Some s), w')
    ∧ deref w' s !! "overwrite" = Some PNone
    ∧ deref w' s !! "overwrite" ≠ Some v.
Proof.
  intros Hv Hn Hl. run_sanitize.
  rewrite sanitized_dict_overwrite, Hv. cbn. rewrite Hn, Hl. cbn.
  split; [done|]. intros [= <-]. discriminate.
Qed.

Lemma sanitize_overwrite_scalar_witness :
  ∃ s w',
    _sanitize_config (Some 0) (world_with bad_config) = (Ok (Some s), w')
    ∧ deref w' s !! "overwrite" = Some PNone
    ∧ deref w' s !! "overwrite" ≠ Some (PObj "Overwrite" 0).
Proof.
  apply (sanitize_overwrite_scalar (world_with bad_config) 0
           (PObj "Overwrite" 0)); reflexivity.
Defined.

(** C4.  When ["overwrite"] is present with a list or a tuple, the empty one
    included, the sanitised configuration holds the same value under
    ["overwrite"]. *)
Theorem sanitize_overwrite_sequence (w : world) (r : ref) (v : pyval) :
  deref w r !! "overwrite" = Some v →
  isinstance_list_tuple v = true →
  ∃ s w',
    _sanitize_config (Some r) w = (Ok (Some s), w')
    ∧ deref w' s !! "overwrite" = Some v.
Proof.
  intros Hv Hl. run_sanitize.
  rewrite sanitized_dict_overwrite, Hv. cbn. rewrite Hl.
  by rewrite andb_false_r.
Qed.

Lemma sanitize_overwrite_sequence_witness :
  ∃ s w',
    _sanitize_config (Some 0)
      (world_with {[ "overwrite" := PList [] ]}) = (Ok (Some s), w')
    ∧ deref w' s !! "overwrite" = Some (PList []).
Proof.
  apply (sanitize_overwrite_sequence
           (world_with {[ "overwrite" := PList [] ]}) 0 (PList []));
    reflexivity.
Defined.

(** C2, as the specification has it, fails: a ["configurable"] that is
    [None] is not a mapping, and it is left as [None]. *)
Lemma sanitize_configurable_None_kept :
  isinstance_dict PNone = false
  ∧ ∃ s w',
      _sanitize_config (Some 0)
        (world_with {[ "configurable" := PNone ]}) = (Ok (Some s), w')
      ∧ deref w' s !! "configurable" = Some PNone
      ∧ deref w' s !! "configurable" ≠ Some (PDict ∅).
Proof.
  split; [done|]. run_sanitize.
  rewrite sanitized_dict_configurable. split; [done|].
  replace (deref (world_with {[ "configurable" := PNone ]}) 0
             !! "configurable") with (Some PNone) by done.
  discriminate.
Qed.

(** C2, amended.  When ["configurable"] is present, the sanitised
    configuration holds under ["configurable"]: the same value if that is
    [None] or a mapping, and the empty mapping for every other value. *)
Theorem sanitize_configurable_value (w : world) (r : ref) (v : pyval) :
  deref w r !! "configurable" = Some v →
  ∃ s w',
    _sanitize_config (Some r) w = (Ok (Some s), w')
    ∧ deref w' s !! "configurable"
      = Some (if is_None v || isinstance_dict v then v else PDict ∅).
Proof.
  intros Hv. run_sanitize.
  rewrite sanitized_dict_configurable, Hv. cbn. f_equal.
  by destruct (is_None v), (isinstance_dict v).
Qed.

Lemma sanitize_configurable_value_witness :
  ∃ s w',
    _sanitize_config (Some 0) (world_with bad_config) = (Ok (Some s), w')
    ∧ deref w' s !! "configurable" = Some (PDict ∅).
Proof.
  apply (sanitize_configurable_value (world_with bad_config) 0
           (PStr "not-a-dict")); reflexivity.
Defined.

(** C5.  Sanitising a configuration that is there gives a new dictionary
    object: every object of the store, the input among them, is as it was;
    the new object has the keys of the input; and under every key but
    ["overwrite"] and ["configurable"] it has the input's value. *)
Theorem sanitize_copies (w : world) (r : ref) (d : gmap string pyval) :
  heap w !! r = Some d →
  ∃ s w' d',
    _sanitize_config (Some r) w = (Ok (Some s), w')
    ∧ s ≠ r
    ∧ heap w' !! r = Some d
    ∧ (∀ r', r' < length (heap w) → heap w' !! r' = heap w !! r')
    ∧ heap w' !! s = Some d'
    ∧ dom d' = dom d
    ∧ (∀ k, k ≠ "overwrite" → k ≠ "configurable" → d' !! k = d !! k).
Proof.
  intros Hr. pose proof (lookup_lt_Some _ _ _ Hr) as Hlt.
  eexists _, _, _. split; [apply sanitize_config_run|].
  rewrite (deref_Some _ _ _ Hr).
  split; [lia|]. split; [by rewrite lookup_old|].
  split; [intros r' Hr'; by apply lookup_old|].
  split; [apply lookup_sanitized|].
  split; [apply sanitized_dict_dom|].
  intros k. apply sanitized_dict_other.
Qed.

Lemma sanitize_copies_witness :
  ∃ s w' d',
    _sanitize_config (Some 0) (world_with bad_config) = (Ok (Some s), w')
    ∧ s ≠ 0
    ∧ heap w' !! 0 = Some bad_config
    ∧ (∀ r', r' < length (heap (world_with bad_config)) →
             heap w' !! r' = heap (world_with bad_config) !! r')
    ∧ heap w' !! s = Some d'
    ∧ dom d' = dom bad_config
    ∧ (∀ k, k ≠ "overwrite" → k ≠ "configurable" →
            d' !! k = bad_config !! k).
Proof.
  apply (sanitize_copies (world_with bad_config) 0 bad_config). reflexivity.
Defined.

(** C6.  Sanitising the absent configuration gives [None], and no
    dictionary is made. *)
Theorem sanitize_absent (w : world) :
  _sanitize_config None w = (Ok None, w).
Proof. apply sanitize_config_None. Qed.

(** C10.  Sanitising what sanitisation returned gives a configuration of
    the same value: [None] again, or a dictionary with the same keys and
    values. *)
Theorem sanitize_idempotent (w : world) (config : option ref) :
  ∃ c1 w1 c2 w2,
    _sanitize_config config w = (Ok c1, w1)
    ∧ _sanitize_config c1 w1 = (Ok c2, w2)
    ∧ config_value c2 w2 = config_value c1 w1.
Proof.
  destruct config as [r|].
  - eexists _, _, _, _. split; [apply sanitize_config_run|].
    split; [apply sanitize_config_run|].
    cbn [config_value]. f_equal.
    rewrite !(deref_Some _ _ _ (lookup_sanitized _ _)).
    apply sanitized_dict_idem.
  - by eexists _, _, _, _.
Qed.

(** ** The entry points *)

(** The end-to-end scenario: the wrapped client is handed [None] under
    ["overwrite"] and the empty mapping under ["configurable"], and its
    answer comes back as it is. *)
Example invoke_bad_config :
  fst (invoke (mk_adapter (Echo 0) "m") (PStr "hi") (Some 0) ∅
         (world_with bad_config))
  = Ok (PTuple [PStr "hi";
                PDict {[ "overwrite" := PNone;
                         "configurable" := PDict ∅;
                         "tags" := PList [PStr "a"] ]};
                PDict ∅]).
Proof. vm_compute. reflexivity. Qed.

(** An error of the wrapped client comes out of the adapter as it is. *)
Example invoke_client_down :
  fst (invoke (mk_adapter Down "m") (PStr "hi") None ∅ (world_with ∅))
  = Raise connection_refused.
Proof. reflexivity. Qed.

(** C3.  [invoke], [stream] and [ainvoke] sanitise the configuration first
    and then call the wrapped client's entry point of the same name with the
    input as it is, the sanitised configuration and the keyword arguments;
    what the client returns, yields or raises is what the caller gets, and
    the dictionaries are left as the client left them.
    [with_config] sanitises the configuration and calls the wrapped client's
    [with_config] with it, too; an exception of that call is the caller's,
    but when the call returns, [with_config] does not: the assignment to the
    adapter made by [__new__] raises an [AttributeError]. *)
Theorem entry_points_delegate {C : Type} `{!Runnable C}
    (self : Adapter C) (input : pyval) (config : option ref)
    (kwargs : gmap string pyval) (w : world) :
  (∃ line w0 s w1,
      print line w = (Ok tt, w0)
      ∧ _sanitize_config config w0 = (Ok s, w1)
      ∧ fst (invoke self input config kwargs w)
        = fst (r_invoke (ollama_model self) input s kwargs w1)
      ∧ heap (snd (invoke self input config kwargs w))
        = heap (snd (r_invoke (ollama_model self) input s kwargs w1)))
  ∧ (∃ line w0 s w1,
      print line w = (Ok tt, w0)
      ∧ _sanitize_config config w0 = (Ok s, w1)
      ∧ stream self input config kwargs w
        = r_stream (ollama_model self) input s kwargs w1)
  ∧ (∃ s w1,
      _sanitize_config config w = (Ok s, w1)
      ∧ ainvoke self input config kwargs w
        = r_ainvoke (ollama_model self) input s kwargs w1)
  ∧ (∃ s w1,
      _sanitize_config config w = (Ok s, w1)
      ∧ with_config self config kwargs w
        = (match fst (r_with_config (ollama_model self) s kwargs w1) with
           | Ok _ => Raise no_fields_set
           | Raise e => Raise e
           end,
           snd (r_with_config (ollama_model self) s kwargs w1))).
Proof.
  assert (Hs : ∀ w, ∃ s w1, _sanitize_config config w = (Ok s, w1)).
  { intros w'. destruct config as [r|].
    - eexists _, _. apply sanitize_config_run.
    - eexists _, _. apply sanitize_config_None. }
  repeat split.
  - eexists _, _. destruct (Hs (snd (print
      ("[ADAPTER] invoke called with input type: " +:+ type_repr input) w)))
      as (s & w1 & Hrun).
    exists s, w1. split; [reflexivity|]. split; [exact Hrun|].
    unfold invoke, mbind, M_bind, bind. cbn in Hrun |- *. rewrite Hrun.
    destruct (r_invoke (ollama_model self) input s kwargs w1) as [[a|e] w2];
      done.
  - eexists _, _. destruct (Hs (snd (print
      ("[ADAPTER] stream called with input type: " +:+ type_repr input) w)))
      as (s & w1 & Hrun).
    exists s, w1. split; [reflexivity|]. split; [exact Hrun|].
    unfold stream, mbind, M_bind, bind. cbn in Hrun |- *. by rewrite Hrun.
  - destruct (Hs w) as (s & w1 & Hrun). exists s, w1. split; [done|].
    unfold ainvoke, mbind, M_bind, bind. by rewrite Hrun.
  - destruct (Hs w) as (s & w1 & Hrun). exists s, w1. split; [done|].
    unfold with_config, mbind, M_bind, bind. rewrite Hrun.
    by destruct (r_with_config (ollama_model self) s kwargs w1) as [[c|e] w2].
Qed.

Lemma entry_points_delegate_witness :
  fst (r_with_config (Echo 0) None ∅ (world_with ∅)) = Ok (Echo 1)
  ∧ fst (with_config (mk_adapter (Echo 0) "m") None ∅ (world_with ∅))
    = Raise no_fields_set.
Proof.
  split; [reflexivity|].
  destruct (entry_points_delegate (mk_adapter (Echo 0) "m") PNone None ∅
              (world_with ∅)) as (_ & _ & _ & s & w1 & _ & ->).
  reflexivity.
Defined.

(** ** The search tool *)

(** [s[:n]] when [s] has at least [n] characters: a prefix of [s], of length
    [n]. *)
Lemma substring_prefix (n : nat) (s : string) :
  (n ≤ String.length s)%nat →
  String.length (substring 0 n s) = n
  ∧ ∃ rest, s = substring 0 n s +:+ rest.
Proof.
  revert s. induction n as [|n IH]; intros s Hn.
  - split; [by destruct s|]. exists s. by destruct s.
  - destruct s as [|a s]; cbn in Hn; [lia|].
    destruct (IH s ltac:(lia)) as [Hlen [rest Hrest]]. split.
    + change (S (String.length (substring 0 n s)) = S n). by rewrite Hlen.
    + exists rest.
      change (String a s = String a (substring 0 n s +:+ rest)).
      by rewrite <- Hrest.
Qed.

(** The title line and the URL line of an item's block, up to the start of
    the content line. *)
Lemma format_item_shape (item : gmap string string) :
  format_item item
  = "**" +:+ default "No Title" (item !! "title") +:+ "**" +:+ nl
    +:+ "URL: " +:+ default "" (item !! "url") +:+ nl
    +:+ (if Nat.ltb 2000 (String.length (default "" (item !! "content")))
         then substring 0 2000 (default "" (item !! "content"))
              +:+ truncation_marker
         else default "" (item !! "content")).
Proof. reflexivity. Qed.

Lemma render_nonempty (blocks : list string) :
  blocks ≠ [] → render blocks = String.concat separator blocks.
Proof. by destruct blocks. Qed.

Lemma internet_search_run tavily q n tp raw r :
  tavily q n raw tp = Ok r →
  internet_search tavily q n tp raw = Ok (render (format_results r)).
Proof. intros H. unfold internet_search. by rewrite H. Qed.

(** No ["results"] key, and an empty list of results. *)
Example internet_search_no_key :
  internet_search (stub_search None) "x" 5 general false
  = Ok "No results found.".
Proof. reflexivity. Qed.

Example internet_search_no_items :
  internet_search (stub_search (Some [])) "x" 5 general false
  = Ok "No results found.".
Proof. reflexivity. Qed.

(** An error of the provider comes out as it is. *)
Example internet_search_provider_fails :
  internet_search (λ _ _ _ _, Raise connection_refused) "x" 5 news true
  = Raise connection_refused.
Proof. reflexivity. Qed.

(** C7.  In what the search tool returns, the block of an item ends with
    the item's content as it is when that has 2000 characters or fewer, and
    with its first 2000 characters followed by the truncation marker when
    it has more. *)
Theorem internet_search_truncates
    (tavily : string → Z → bool → topic → outcome response)
    (q : string) (n : Z) (tp : topic) (raw : bool) (r : response)
    (items : list (gmap string string)) (i : nat)
    (item : gmap string string) (c : string) :
  tavily q n raw tp = Ok r →
  results r = Some items →
  items !! i = Some item →
  item !! "content" = Some c →
  ∃ blocks shown,
    internet_search tavily q n tp raw = Ok (String.concat separator blocks)
    ∧ length blocks = length items
    ∧ blocks !! i
      = Some ("**" +:+ default "No Title" (item !! "title") +:+ "**" +:+ nl
              +:+ "URL: " +:+ default "" (item !! "url") +:+ nl +:+ shown)
    ∧ ((2000 < String.length c)%nat →
       shown = substring 0 2000 c +:+ truncation_marker
       ∧ String.length (substring 0 2000 c) = 2000
       ∧ ∃ rest, c = substring 0 2000 c +:+ rest)
    ∧ ((String.length c ≤ 2000)%nat → shown = c).
Proof.
  intros Hcall Hres Hi Hc.
  exists (format_item <$> items),
    (if Nat.ltb 2000 (String.length c)
     then substring 0 2000 c +:+ truncation_marker else c).
  split.
  { rewrite (internet_search_run _ _ _ _ _ _ Hcall). f_equal.
    unfold format_results. rewrite Hres. cbn [default].
    apply render_nonempty. by destruct items. }
  split; [apply length_fmap|].
  split.
  { rewrite list_lookup_fmap, Hi. cbn. f_equal.
    rewrite format_item_shape. by rewrite Hc. }
  split.
  - intros Hlong. destruct (Nat.ltb_spec 2000 (String.length c)); [|lia].
    split; [done|]. apply substring_prefix. lia.
  - intros Hshort. by destruct (Nat.ltb_spec 2000 (String.length c)); [lia|].
Qed.

Lemma internet_search_truncates_witness :
  ∃ blocks shown,
    internet_search
      (stub_search (Some [mk_item "T" "http://u" (letters 2001)]))
      "x" 2 general false
    = Ok (String.concat separator blocks)
    ∧ length blocks = 1
    ∧ blocks !! 0
      = Some ("**" +:+ "T" +:+ "**" +:+ nl
              +:+ "URL: " +:+ "http://u" +:+ nl +:+ shown)
    ∧ ((2000 < String.length (letters 2001))%nat →
       shown = substring 0 2000 (letters 2001) +:+ truncation_marker
       ∧ String.length (substring 0 2000 (letters 2001)) = 2000
       ∧ ∃ rest, letters 2001 = substring 0 2000 (letters 2001) +:+ rest)
    ∧ ((String.length (letters 2001) ≤ 2000)%nat → shown = letters 2001).
Proof.
  apply (internet_search_truncates
           (stub_search (Some [mk_item "T" "http://u" (letters 2001)]))
           "x" 2 general false
           (mk_response (Some [mk_item "T" "http://u" (letters 2001)]))
           [mk_item "T" "http://u" (letters 2001)] 0
           (mk_item "T" "http://u" (letters 2001)) (letters 2001));
    reflexivity.
Defined.



(** ** The memory statistics *)

Lemma memory_stats_body_import_fails (e : exn) :
  memory_stats_body (Raise e) = Raise e.
Proof. reflexivity. Qed.

(** No [torch] installed. *)
Example get_memory_stats_no_torch :
  get_memory_stats (Raise (mk_exn ModuleNotFoundError "No module named 'torch'"))
  = Ok None.
Proof. reflexivity. Qed.

(** CUDA is there, and asking for the reserved memory fails. *)
Example get_memory_stats_cuda_fails :
  get_memory_stats
    (Ok {| cuda_is_available := Ok true;
           cuda_memory_allocated := Ok 1048576%Z;
           cuda_memory_reserved := Raise (mk_exn RuntimeError "CUDA error");
           cuda_max_memory_allocated := Ok 0%Z;
           has_backends_mps := false;
           mps_is_available := Ok false |})
  = Ok (Some {[ "error" := PStr "CUDA error" ]}).
Proof. reflexivity. Qed.

(** Neither CUDA nor MPS. *)
Example get_memory_stats_cpu :
  get_memory_stats
    (Ok {| cuda_is_available := Ok false;
           cuda_memory_allocated := Ok 0%Z;
           cuda_memory_reserved := Ok 0%Z;
           cuda_max_memory_allocated := Ok 0%Z;
           has_backends_mps := true;
           mps_is_available := Ok false |})
  = Ok (Some cpu_stats).
Proof. reflexivity. Qed.


(** * Further properties *)

(** ** Sanitisation makes a configuration safe *)

Lemma sanitized_dict_safe (d : gmap string pyval) :
  config_safe (sanitized_dict d) = true.
Proof.
  unfold config_safe.
  rewrite sanitized_dict_overwrite, sanitized_dict_configurable.
  apply andb_true_iff. split.
  - destruct (d !! "overwrite") as [v|]; [|done]. by destruct v.
  - destruct (d !! "configurable") as [v|]; [|done]. by destruct v.
Qed.

Lemma fix_overwrite_safe (d : gmap string pyval) :
  from_option overwrite_ok true (d !! "overwrite") = true →
  fix_overwrite d = d.
Proof.
  unfold fix_overwrite, overwrite_ok.
  destruct (d !! "overwrite") as [v|]; [|done]. cbn. intros Hok.
  by destruct (is_None v), (isinstance_list_tuple v).
Qed.

Lemma fix_configurable_safe (d : gmap string pyval) :
  from_option configurable_ok true (d !! "configurable") = true →
  fix_configurable d = d.
Proof.
  unfold fix_configurable, configurable_ok.
  destruct (d !! "configurable") as [v|]; [|done]. cbn. intros Hok.
  by destruct (is_None v), (isinstance_dict v).
Qed.

(** The safe configurations are the ones sanitisation has nothing to do
    on. *)
Lemma sanitized_dict_fixed (d : gmap string pyval) :
  sanitized_dict d = d ↔ config_safe d = true.
Proof.
  split.
  - intros <-. apply sanitized_dict_safe.
  - unfold config_safe. intros [Ho Hc]%andb_true_iff. unfold sanitized_dict.
    rewrite (fix_overwrite_safe d Ho). by apply fix_configurable_safe.
Qed.

(** [_sanitize_config] returns on every argument, prints nothing, and what
    it returns is safe. *)
Lemma sanitize_config_total (config : option ref) (w : world) :
  ∃ s w',
    _sanitize_config config w = (Ok s, w')
    ∧ stdout w' = stdout w
    ∧ config_arg_safe s w' = true.
Proof.
  destruct config as [r|].
  - eexists _, _. split; [apply sanitize_config_run|]. split; [done|].
    cbn [config_arg_safe].
    rewrite (deref_Some _ _ _ (lookup_sanitized _ _)).
    apply sanitized_dict_safe.
  - by eexists _, _.
Qed.

(** X1.  Whatever the configuration holds, what [_sanitize_config] returns
    is [None] or a dictionary in which ["overwrite"], when there, is [None]
    or a list or tuple, and ["configurable"], when there, is [None] or a
    dictionary. *)
Theorem sanitize_result_safe (config : option ref) (w : world) :
  ∃ s w',
    _sanitize_config config w = (Ok s, w')
    ∧ (s = None ↔ config = None)
    ∧ ∀ r, s = Some r →
        (∀ v, deref w' r !! "overwrite" = Some v →
              v = PNone ∨ (∃ l, v = PList l) ∨ (∃ l, v = PTuple l))
        ∧ (∀ v, deref w' r !! "configurable" = Some v →
                v = PNone ∨ ∃ m, v = PDict m).
Proof.
  destruct config as [r|].
  - eexists _, _. split; [apply sanitize_config_run|]. split; [done|].
    intros r' [= <-].
    rewrite (deref_Some _ _ _ (lookup_sanitized _ _)).
    pose proof (sanitized_dict_safe (deref w r)) as Hsafe.
    unfold config_safe in Hsafe. apply andb_true_iff in Hsafe as [Ho Hc].
    split; intros v Hv.
    + rewrite Hv in Ho. destruct v; try discriminate; eauto.
    + rewrite Hv in Hc. destruct v; try discriminate; eauto.
  - eexists _, _. split; [reflexivity|]. split; [done|]. discriminate.
Qed.

(** X2.  The copy [_sanitize_config] returns has the contents of the
    caller's dictionary exactly when that was safe already. *)
Theorem sanitize_changes_only_unsafe (w : world) (r : ref) :
  ∃ s w',
    _sanitize_config (Some r) w = (Ok (Some s), w')
    ∧ (deref w' s = deref w r ↔ config_safe (deref w r) = true).
Proof.
  eexists _, _. split; [apply sanitize_config_run|].
  rewrite (deref_Some _ _ _ (lookup_sanitized _ _)).
  apply sanitized_dict_fixed.
Qed.

(** X3.  [_sanitize_config] never raises and prints nothing, whatever the
    configuration holds; the dictionary objects that were there stay as they
    were, and for [None] nothing at all changes. *)
Theorem sanitize_effects (config : option ref) (w : world) :
  ∃ s w',
    _sanitize_config config w = (Ok s, w')
    ∧ stdout w' = stdout w
    ∧ heap w `prefix_of` heap w'
    ∧ (config = None → w' = w).
Proof.
  destruct config as [r|].
  - eexists _, _. split; [apply sanitize_config_run|]. split; [done|].
    cbn. split; [by eexists|done].
  - eexists _, _. split; [reflexivity|]. by split.
Qed.

(** ** The entry points, once more *)

Section adapter_facts.
Context {C : Type} `{!Runnable C}.


(** X5.  [invoke] prints its first line before the wrapped client runs.
    When the client returns, [invoke] returns the same value and prints one
    more line after what the client printed; when the client raises,
    [invoke] raises the same exception and prints nothing more.  The
    dictionaries are as the client left them. *)
Theorem invoke_log (self : Adapter C) (input : pyval) (config : option ref)
    (kwargs : gmap string pyval) (w : world) :
  ∃ s w1,
    _sanitize_config config
      {| heap := heap w;
         stdout := stdout w ++ ["[ADAPTER] invoke called with input type: "
                                +:+ type_repr input] |}
    = (Ok s, w1)
    ∧ stdout w1 = stdout w ++ ["[ADAPTER] invoke called with input type: "
                               +:+ type_repr input]
    ∧ match r_invoke (ollama_model self) input s kwargs w1 with
      | (Ok v, w2) =>
          invoke self input config kwargs w
          = (Ok v, {| heap := heap w2;
                      stdout := stdout w2 ++ ["[ADAPTER] invoke returned: "
                                              +:+ type_repr v] |})
      | (Raise e, w2) => invoke self input config kwargs w = (Raise e, w2)
      end.
Proof.
  match goal with |- context [_sanitize_config config ?w0] =>
    destruct (sanitize_config_total config w0) as (s & w1 & Hrun & Hout & _)
  end.
  exists s, w1. split; [done|]. split; [done|].
  unfold invoke, mbind, M_bind, bind. cbn [print]. rewrite Hrun.
  by destruct (r_invoke (ollama_model self) input s kwargs w1) as [[v|e] w2].
Qed.

End adapter_facts.

(** X6.  [_generate] and [bind_tools] print a line, call the wrapped
    client's hook with their arguments as they are, and then: when the hook
    returns, return the same object and print a second line; when it raises,
    raise the same exception and print nothing more.  [_agenerate] is the
    client's hook.  None of them makes or changes a dictionary besides what
    the client does. *)
Theorem passthrough_hooks {C : Type} `{!ChatModel C} (self : Adapter C)
    (xs : list pyval) (stop run_manager : pyval)
    (kwargs : gmap string pyval) (w : world) :
  match r_generate (ollama_model self) xs stop run_manager kwargs
          {| heap := heap w;
             stdout := stdout w ++ ["[ADAPTER] _generate called with "
                                    +:+ pretty (length xs) +:+ " messages"] |}
  with
  | (Ok v, w2) =>
      _generate self xs stop run_manager kwargs w
      = (Ok v, {| heap := heap w2;
                  stdout := stdout w2 ++ ["[ADAPTER] _generate returned: "
                                          +:+ type_repr v] |})
  | (Raise e, w2) =>
      _generate self xs stop run_manager kwargs w = (Raise e, w2)
  end
  ∧ match r_bind_tools (ollama_model self) xs kwargs
            {| heap := heap w;
               stdout := stdout w ++ ["[ADAPTER] bind_tools called with "
                                      +:+ pretty (length xs) +:+ " tools"] |}
    with
    | (Ok v, w2) =>
        bind_tools self xs kwargs w
        = (Ok v, {| heap := heap w2;
                    stdout := stdout w2 ++ ["[ADAPTER] bind_tools returning: "
                                            +:+ type_repr v] |})
    | (Raise e, w2) => bind_tools self xs kwargs w = (Raise e, w2)
    end
  ∧ _agenerate self xs stop run_manager kwargs w
    = r_agenerate (ollama_model self) xs stop run_manager kwargs w.
Proof.
  repeat split.
  - unfold _generate, mbind, M_bind, bind. cbn [print].
    by destruct (r_generate _ _ _ _ _ _) as [[v|e] w2].
  - unfold bind_tools, mbind, M_bind, bind. cbn [print].
    by destruct (r_bind_tools _ _ _ _) as [[v|e] w2].
Qed.

(** A call with three tools, and a call the client refuses. *)
Example bind_tools_three :
  bind_tools (mk_adapter Fixed "m") [PNone; PNone; PNone] ∅ (world_with ∅)
  = (Ok (PObj "RunnableBinding" 1),
     {| heap := [∅];
        stdout := ["[ADAPTER] bind_tools called with 3 tools";
                   "[ADAPTER] bind_tools returning: <class 'RunnableBinding'>"]
     |}).
Proof. reflexivity. Qed.

Example bind_tools_refused :
  bind_tools (mk_adapter Fixed "m") [] ∅ (world_with ∅)
  = (Raise (mk_exn TypeError "no tools"),
     {| heap := [∅];
        stdout := ["[ADAPTER] bind_tools called with 0 tools"] |}).
Proof. reflexivity. Qed.

(** ** The search tool, once more *)

Lemma string_length_app (a b : string) :
  String.length (a +:+ b) = (String.length a + String.length b)%nat.
Proof.
  induction a as [|c a IH]; [done|].
  change (S (String.length (a +:+ b))
          = S (String.length a + String.length b)). by rewrite IH.
Qed.

Lemma string_app_assoc (a b c : string) :
  (a +:+ b) +:+ c = a +:+ (b +:+ c).
Proof.
  induction a as [|x a IH]; [done|].
  change (String x ((a +:+ b) +:+ c) = String x (a +:+ (b +:+ c))).
  by rewrite IH.
Qed.

Lemma concat_app_nonempty (sep : string) (l1 l2 : list string) :
  l1 ≠ [] → l2 ≠ [] →
  String.concat sep (l1 ++ l2)
  = String.concat sep l1 +:+ sep +:+ String.concat sep l2.
Proof.
  intros H1 H2. induction l1 as [|a [|b l1] IH]; [done| |].
  - destruct l2; [done|]. reflexivity.
  - change (String.concat sep ((a :: b :: l1) ++ l2))
      with (a +:+ sep +:+ String.concat sep ((b :: l1) ++ l2)).
    rewrite IH by done.
    change (String.concat sep (a :: b :: l1))
      with (a +:+ sep +:+ String.concat sep (b :: l1)).
    by rewrite !string_app_assoc.
Qed.

(** The content line of a block never has more than 2000 characters and
    the marker. *)
Lemma shown_content_bounded (c : string) :
  (String.length (if Nat.ltb 2000 (String.length c)
                  then substring 0 2000 c +:+ truncation_marker
                  else c) ≤ 2015)%nat.
Proof.
  destruct (Nat.ltb_spec 2000 (String.length c)) as [Hlong|Hshort].
  - rewrite string_length_app.
    destruct (substring_prefix 2000 c) as [-> _]; [lia|].
    apply Nat.eq_le_incl. reflexivity.
  - lia.
Qed.

Lemma format_item_nonempty (item : gmap string string) :
  format_item item ≠ "".
Proof. rewrite format_item_shape. discriminate. Qed.

Lemma concat_cons_nonempty (sep b : string) (l : list string) :
  b ≠ "" → String.concat sep (b :: l) ≠ "".
Proof. intros Hb. destruct l, b; done. Qed.

(** X7.  For an answer of the provider that is well formed (a list of
    items, or none, with strings in them), the text [internet_search]
    returns is never empty, with items or without; an exception of the
    provider is the caller's. *)
Theorem internet_search_outcome
    (tavily : string → Z → bool → topic → outcome response)
    (q : string) (n : Z) (tp : topic) (raw : bool) :
  (∀ r, tavily q n raw tp = Ok r →
        ∃ out, internet_search tavily q n tp raw = Ok out ∧ out ≠ "")
  ∧ (∀ e, tavily q n raw tp = Raise e →
          internet_search tavily q n tp raw = Raise e).
Proof.
  unfold internet_search, mbind, outcome_bind. split.
  - intros r ->. eexists. split; [reflexivity|]. unfold format_results.
    destruct (default [] (results r)) as [|item items]; [done|].
    rewrite render_nonempty by done. rewrite fmap_cons.
    apply concat_cons_nonempty, format_item_nonempty.
  - by intros e ->.
Qed.

(** X8.  However long the content of an item is, its block has at most
    2026 characters besides the title and the URL. *)
Theorem format_item_bounded (item : gmap string string) :
  (String.length (format_item item)
   ≤ String.length (default "No Title" (item !! "title"))
     + String.length (default "" (item !! "url")) + 2026)%nat.
Proof.
  rewrite format_item_shape. rewrite !string_length_app.
  pose proof (shown_content_bounded (default "" (item !! "content"))) as Hc.
  change (String.length "**") with 2. change (String.length nl) with 1.
  change (String.length "URL: ") with 5. lia.
Qed.

(** X9.  The block of an item is made of its title, its URL and its content
    and of nothing else: two items that agree under these three keys have
    the same block. *)
Theorem format_item_three_keys (item1 item2 : gmap string string) :
  item1 !! "title" = item2 !! "title" →
  item1 !! "url" = item2 !! "url" →
  item1 !! "content" = item2 !! "content" →
  format_item item1 = format_item item2.
Proof. intros Ht Hu Hc. rewrite !format_item_shape. by rewrite Ht, Hu, Hc. Qed.

Lemma format_item_three_keys_witness :
  format_item (<["raw_content" := "<html>"]> (mk_item "T" "http://u" "c"))
  = format_item (mk_item "T" "http://u" "c").
Proof.
  apply (format_item_three_keys
           (<["raw_content" := "<html>"]> (mk_item "T" "http://u" "c"))
           (mk_item "T" "http://u" "c")); reflexivity.
Defined.

(** X10.  The text for a list of items that is two lists put together, both
    with items, is the text for the first, the separator and the text for
    the second. *)
Theorem render_app (items1 items2 : list (gmap string string)) :
  items1 ≠ [] → items2 ≠ [] →
  render (format_results (mk_response (Some (items1 ++ items2))))
  = render (format_results (mk_response (Some items1)))
    +:+ separator
    +:+ render (format_results (mk_response (Some items2))).
Proof.
  intros H1 H2. unfold format_results. cbn [results from_option id].
  rewrite fmap_app.
  rewrite !render_nonempty.
  - apply concat_app_nonempty; by destruct items1, items2.
  - by destruct items2.
  - by destruct items1.
  - by destruct items1.
Qed.

Lemma render_app_witness :
  render (format_results
            (mk_response (Some ([mk_item "A" "a" "1"] ++ [mk_item "B" "b" "2"]))))
  = render (format_results (mk_response (Some [mk_item "A" "a" "1"])))
    +:+ separator
    +:+ render (format_results (mk_response (Some [mk_item "B" "b" "2"]))).
Proof.
  apply (render_app [mk_item "A" "a" "1"] [mk_item "B" "b" "2"]);
    discriminate.
Defined.

(** ** Clearing the accelerator memory *)

Lemma calls_of_app (t1 t2 : list mem_event) :
  calls_of (t1 ++ t2) = calls_of t1 ++ calls_of t2.
Proof. apply omap_app. Qed.

Lemma lines_of_app (t1 t2 : list mem_event) :
  lines_of (t1 ++ t2) = lines_of t1 ++ lines_of t2.
Proof. apply omap_app. Qed.

(** Membership in a list that is written out. *)
Ltac in_list :=
  solve [repeat first [apply list_elem_of_here | apply list_elem_of_further]].

Ltac not_in_list :=
  let H := fresh in
  intros H;
  repeat (apply elem_of_cons in H as [H|H]; [discriminate H|]);
  by apply elem_of_nil in H.

(** Takes [clear_cuda_memory] apart along what [torch] answers. *)
Ltac clear_cases :=
  unfold clear_cuda_memory, clear_cuda_body, try_except, mbind, T_bind,
    call, print_if, mret, T_ret;
  cbn;
  repeat (case_match; simplify_eq/=).

(** X11.  [clear_cuda_memory] never raises, whatever [torch] does, and the
    first thing it does is collect garbage. *)
Theorem clear_never_raises (import_torch : outcome TorchCache)
    (verbose : bool) (t : list mem_event) :
  fst (clear_cuda_memory import_torch verbose t) = Ok tt
  ∧ ∃ rest,
      snd (clear_cuda_memory import_torch verbose t)
      = t ++ Called GcCollect :: rest.
Proof.
  clear_cases;
    (split; [try done; by destruct_all unit|]);
    rewrite <- ?(assoc_L (++)); cbn; eauto.
Qed.


(** X13.  What [clear_cuda_memory] calls, and in which order, does not
    depend on [verbose]. *)
Theorem clear_calls_whatever_verbose (import_torch : outcome TorchCache)
    (t : list mem_event) :
  calls_of (snd (clear_cuda_memory import_torch true t))
  = calls_of (snd (clear_cuda_memory import_torch false t)).
Proof.
  clear_cases; rewrite ?calls_of_app; cbn; by rewrite ?app_nil_r.
Qed.

(** X14.  When CUDA is available, [clear_cuda_memory] empties the CUDA
    cache and then, if that went through, synchronises; it asks nothing of
    MPS, whatever MPS would answer. *)
Theorem clear_prefers_cuda (torch : TorchCache) (verbose : bool) :
  cuda_is_available (torch_stats torch) = Ok true →
  calls_of (snd (clear_cuda_memory (Ok torch) verbose []))
  = [GcCollect; ImportTorch; CudaIsAvailable; CudaEmptyCache]
    ++ match cuda_empty_cache torch with
       | Ok _ => [CudaSynchronize]
       | Raise _ => []
       end.
Proof.
  intros Hcuda. clear_cases; rewrite ?calls_of_app; cbn; try done.
Qed.

Lemma clear_prefers_cuda_witness :
  calls_of (snd (clear_cuda_memory (Ok (torch_with true true true)) true []))
  = [GcCollect; ImportTorch; CudaIsAvailable; CudaEmptyCache]
    ++ [CudaSynchronize].
Proof. apply (clear_prefers_cuda (torch_with true true true) true). reflexivity. Defined.

(** X15.  Without CUDA, [clear_cuda_memory] touches no CUDA cache; it
    empties the MPS cache exactly when MPS is there, is available and has an
    [empty_cache]. *)
Theorem clear_without_cuda (torch : TorchCache) (verbose : bool) :
  cuda_is_available (torch_stats torch) = Ok false →
  (CudaEmptyCache
   ∉ calls_of (snd (clear_cuda_memory (Ok torch) verbose [])))
  ∧ (CudaSynchronize
     ∉ calls_of (snd (clear_cuda_memory (Ok torch) verbose [])))
  ∧ (MpsEmptyCache ∈ calls_of (snd (clear_cuda_memory (Ok torch) verbose []))
     ↔ has_backends_mps (torch_stats torch) = true
       ∧ mps_is_available (torch_stats torch) = Ok true
       ∧ mps_has_empty_cache torch = Ok true).
Proof.
  intros Hcuda.
  clear_cases; rewrite ?calls_of_app; cbn;
    (split; [not_in_list|]); (split; [not_in_list|]);
    (split; [first [by intros _ | intros Hin; exfalso; revert Hin; not_in_list]
            |first [intros _; in_list | intros (? & ? & ?); congruence]]).
Qed.

Lemma clear_without_cuda_witness :
  MpsEmptyCache
  ∈ calls_of (snd (clear_cuda_memory (Ok (torch_with false true true)) true [])).
Proof.
  apply (clear_without_cuda (torch_with false true true) true); done.
Defined.

(** ** The memory statistics, once more *)

(** Takes [get_memory_stats] apart along what [torch] answers. *)
Ltac stats_cases :=
  unfold get_memory_stats, memory_stats_body, mbind, outcome_bind, mret,
    outcome_ret;
  cbn;
  repeat (case_match; simplify_eq/=).

(** X16.  What [get_memory_stats] returns is [None], or a mapping with the
    one key ["error"], or a mapping that names its backend, one of "cuda",
    "mps" and "cpu", and has no ["error"]. *)
Theorem get_memory_stats_shape (import_torch : outcome Torch) :
  get_memory_stats import_torch = Ok None
  ∨ (∃ msg, get_memory_stats import_torch
            = Ok (Some {[ "error" := PStr msg ]}))
  ∨ (∃ stats backend,
       get_memory_stats import_torch = Ok (Some stats)
       ∧ stats !! "backend" = Some (PStr backend)
       ∧ backend ∈ ["cuda"; "mps"; "cpu"]
       ∧ stats !! "error" = None).
Proof.
  stats_cases; eauto;
    right; right; eexists _, _; (split; [reflexivity|]);
    (split; [by simplify_map_eq|]); (split; [in_list|done]).
Qed.

Lemma to_mb_exact (n : Z) :
  (inject_Z n / 1024 / 1024 * 1048576 == inject_Z n)%Q
  ∧ ((0 ≤ n)%Z → (0 <= inject_Z n / 1024 / 1024)%Q).
Proof.
  split.
  - field.
  - intros Hn. unfold Qle, Qdiv, Qmult, Qinv, inject_Z. cbn. lia.
Qed.

(** X17.  With CUDA available and the three counters read, each a number
    of bytes from 0 to 2^53, the result is the CUDA mapping, whatever MPS
    would answer; each figure is the counter divided by 1048576, and it is
    not negative. *)
Theorem get_memory_stats_cuda (torch : Torch) (a r m : Z) :
  cuda_is_available torch = Ok true →
  cuda_memory_allocated torch = Ok a →
  cuda_memory_reserved torch = Ok r →
  cuda_max_memory_allocated torch = Ok m →
  (0 ≤ a ≤ 2 ^ 53)%Z →
  (0 ≤ r ≤ 2 ^ 53)%Z →
  (0 ≤ m ≤ 2 ^ 53)%Z →
  ∃ qa qr qm,
    get_memory_stats (Ok torch)
    = Ok (Some {[ "backend" := PStr "cuda";
                  "allocated_mb" := PFloat qa;
                  "reserved_mb" := PFloat qr;
                  "max_allocated_mb" := PFloat qm ]})
    ∧ (qa * 1048576 == inject_Z a)%Q
    ∧ (qr * 1048576 == inject_Z r)%Q
    ∧ (qm * 1048576 == inject_Z m)%Q
    ∧ (0 <= qa)%Q
    ∧ (0 <= qr)%Q
    ∧ (0 <= qm)%Q.
Proof.
  intros Hc Ha Hr Hm Hra Hrr Hrm. eexists _, _, _. split.
  { unfold get_memory_stats, memory_stats_body, mbind, outcome_bind, mret,
      outcome_ret. rewrite Hc, Ha, Hr, Hm. reflexivity. }
  repeat split; apply to_mb_exact; lia.
Qed.

Lemma get_memory_stats_cuda_witness :
  ∃ qa qr qm,
    get_memory_stats (Ok (torch_stats (torch_with true true true)))
    = Ok (Some {[ "backend" := PStr "cuda";
                  "allocated_mb" := PFloat qa;
                  "reserved_mb" := PFloat qr;
                  "max_allocated_mb" := PFloat qm ]})
    ∧ (qa * 1048576 == inject_Z 1048576)%Q
    ∧ (qr * 1048576 == inject_Z 2097152)%Q
    ∧ (qm * 1048576 == inject_Z 3145728)%Q
    ∧ (0 <= qa)%Q
    ∧ (0 <= qr)%Q
    ∧ (0 <= qm)%Q.
Proof.
  apply (get_memory_stats_cuda (torch_stats (torch_with true true true))
           1048576 2097152 3145728); try reflexivity; lia.
Defined.

(** X18.  [get_memory_stats] and [clear_cuda_memory] pick the backend the
    same way: when the statistics name "cuda", clearing empties the CUDA
    cache and not the MPS one; when they name "mps", it leaves the CUDA cache
    alone and empties the MPS cache if there is an [empty_cache]; when they
    name "cpu", it empties neither. *)
Theorem stats_and_clear_agree (torch : TorchCache) (verbose : bool)
    (stats : gmap string pyval) (calls : list mem_call) :
  get_memory_stats (Ok (torch_stats torch)) = Ok (Some stats) →
  calls = calls_of (snd (clear_cuda_memory (Ok torch) verbose [])) →
  (stats !! "backend" = Some (PStr "cuda") →
   CudaEmptyCache ∈ calls ∧ MpsEmptyCache ∉ calls)
  ∧ (stats !! "backend" = Some (PStr "mps") →
     (CudaEmptyCache ∉ calls)
     ∧ (MpsEmptyCache ∈ calls ↔ mps_has_empty_cache torch = Ok true))
  ∧ (stats !! "backend" = Some (PStr "cpu") →
     (CudaEmptyCache ∉ calls) ∧ MpsEmptyCache ∉ calls).
Proof.
  intros Hstats ->. revert Hstats.
  unfold get_memory_stats, memory_stats_body, mbind, outcome_bind, mret,
    outcome_ret.
  clear_cases; intros; simplify_eq; rewrite ?calls_of_app; cbn;
    (split; [|split]); intros Hb; simplify_map_eq;
    (split; [first [in_list | not_in_list] |]);
    first [not_in_list
          | split; first [by intros _ | intros _; in_list
                         | intros Hin; exfalso; revert Hin; not_in_list
                         | discriminate ] ].
Qed.

Lemma stats_and_clear_agree_witness :
  (mps_stats !! "backend" = Some (PStr "cuda") →
   CudaEmptyCache ∈ [GcCollect; ImportTorch; CudaIsAvailable; MpsIsAvailable;
                     MpsHasEmptyCache; MpsEmptyCache]
   ∧ MpsEmptyCache ∉ [GcCollect; ImportTorch; CudaIsAvailable; MpsIsAvailable;
                      MpsHasEmptyCache; MpsEmptyCache])
  ∧ (mps_stats !! "backend" = Some (PStr "mps") →
     (CudaEmptyCache ∉ [GcCollect; ImportTorch; CudaIsAvailable;
                        MpsIsAvailable; MpsHasEmptyCache; MpsEmptyCache])
     ∧ (MpsEmptyCache ∈ [GcCollect; ImportTorch; CudaIsAvailable;
                         MpsIsAvailable; MpsHasEmptyCache; MpsEmptyCache]
        ↔ mps_has_empty_cache (torch_with false true true) = Ok true))
  ∧ (mps_stats !! "backend" = Some (PStr "cpu") →
     (CudaEmptyCache ∉ [GcCollect; ImportTorch; CudaIsAvailable;
                        MpsIsAvailable; MpsHasEmptyCache; MpsEmptyCache])
     ∧ MpsEmptyCache ∉ [GcCollect; ImportTorch; CudaIsAvailable;
                        MpsIsAvailable; MpsHasEmptyCache; MpsEmptyCache]).
Proof.
  apply (stats_and_clear_agree (torch_with false true true) true mps_stats);
    reflexivity.
Defined.
